(** * SiliconFlowProvider: request lifecycle, cancellation and error normalisation

    A shallow embedding of
    [apps/agent-tars/src/main/llmProvider/providers/SiliconFlowProvider.ts].

    The class keeps a registry [activeRequests] from request ids to
    [AbortController] objects.  Each of the three operations registers a fresh
    controller, reaches the place where the backend request is to be awaited,
    and releases the registry entry on every exit.  Thrown JavaScript values
    and the mutable registry are threaded explicitly through a small
    state-and-exception monad. *)

From stdpp Require Import gmap strings list fin_maps.

Open Scope string_scope.

(** ** JavaScript values that matter here *)

Module Js.

(** A value that can be thrown.
    - [JsError name message] is an object with [instanceof Error] that
      inherits [Error.prototype.toString];
    - [JsErrorOwn name message own] is an object with [instanceof Error]
      whose conversion to a string is its own (an overridden [toString]),
      and gives a text or throws;
    - [JsSymbol description] is a Symbol;
    - [JsOther text] is any other value whose conversion to a string gives
      [text];
    - [JsUnconvertible thrown] is any other value whose conversion to a
      string throws [thrown] (an object without [toString], or with one that
      throws). *)
Inductive Value : Type :=
| JsError (name message : string)
| JsOther (text : string)
| JsSymbol (description : string)
| JsErrorOwn (name message : string) (own : Conversion)
| JsUnconvertible (thrown : Value)
with Conversion : Type :=
| Text (s : string)
| Raises (thrown : Value).

(** [new Error(message)]: the [name] of a plain [Error] is ["Error"]. *)
Definition new_Error (message : string) : Value := JsError "Error" message.

(** [Error.prototype.toString], as inherited by a [JsError]. *)
Definition Error_toString (name message : string) : string :=
  if String.eqb name "" then message
  else if String.eqb message "" then name
  else name +:+ ": " +:+ message.

(** The [TypeError] with which a Symbol refuses to become a string (the
    message is the one of V8). *)
Definition symbol_conversion_error : Value :=
  JsError "TypeError" "Cannot convert a Symbol value to a string".

(** The abstract operation [ToString], which a template literal [`${v}`]
    applies to [v].  It throws on a Symbol. *)
Definition ToString (v : Value) : Conversion :=
  match v with
  | JsError name message => Text (Error_toString name message)
  | JsOther text => Text text
  | JsSymbol _ => Raises symbol_conversion_error
  | JsErrorOwn _ _ own => own
  | JsUnconvertible thrown => Raises thrown
  end.

(** The call [String(v)]: it describes a Symbol instead of throwing, and is
    [ToString] on every other value. *)
Definition String_ (v : Value) : Conversion :=
  match v with
  | JsSymbol description => Text ("Symbol(" +:+ description +:+ ")")
  | _ => ToString v
  end.

(** [s.includes(sub)]: [sub] occurs in [s] as a contiguous substring. *)
Fixpoint includes (s sub : string) : bool :=
  String.prefix sub s ||
  match s with
  | EmptyString => false
  | String _ rest => includes rest sub
  end.

(** [a || b] on values of type [string | undefined]: [undefined] and the
    empty string are falsy. *)
Definition truthy (a : option string) : bool :=
  match a with
  | Some s => negb (String.eqb s "")
  | None => false
  end.

Definition or (a b : option string) : option string :=
  if truthy a then a else b.

End Js.

Export Js.

(** ** The provider's mutable world *)

(** An [AbortController] is an object shared by reference between the registry
    and the operation that created it; a reference is an index into the store
    of [signal.aborted] flags. *)
Definition AbortController : Type := nat.

Record World : Type := mkWorld {
  (** [this.activeRequests], a [Map<string, AbortController>] *)
  activeRequests : gmap string AbortController;
  (** the [signal.aborted] flag of every controller allocated so far *)
  signals : list bool
}.

Definition initial_world : World := mkWorld ∅ [].

(** ** Computations: state plus exceptions *)

Inductive Outcome (A : Type) : Type :=
| Ret (a : A)
| Throw (e : Value).
Arguments Ret {A} a.
Arguments Throw {A} e.

Definition M (A : Type) : Type := World -> Outcome A * World.

Definition ret {A} (a : A) : M A := fun w => (Ret a, w).

Definition throw {A} (e : Value) : M A := fun w => (Throw e, w).

Definition bind {A B} (m : M A) (k : A -> M B) : M B :=
  fun w =>
    match m w with
    | (Ret a, w') => k a w'
    | (Throw e, w') => (Throw e, w')
    end.

(** [try { body } catch (error) { handler error }] *)
Definition try_catch {A} (body : M A) (handler : Value -> M A) : M A :=
  fun w =>
    match body w with
    | (Ret a, w') => (Ret a, w')
    | (Throw e, w') => handler e w'
    end.

Declare Scope js_scope.
Delimit Scope js_scope with js.
Notation "'let*' x ':=' m 'in' k" := (bind m (fun x => k))
  (at level 10, x name, m at level 100, k at level 200) : js_scope.
Notation "m ';;' k" := (bind m (fun _ => k))
  (at level 100, k at level 200, right associativity) : js_scope.
Open Scope js_scope.

(** A conversion to a string inside a computation: its text, or what it
    throws. *)
Definition convert (c : Conversion) : M string :=
  match c with
  | Text s => ret s
  | Raises thrown => throw thrown
  end.

(** [when c m]: [if (c) { m }] *)
Definition when (c : bool) (m : M unit) : M unit :=
  if c then m else ret tt.

(** ** Primitive operations on the world *)

(** [new AbortController()]: a fresh controller whose signal is not aborted. *)
Definition new_AbortController : M AbortController :=
  fun w => (Ret (length (signals w)),
            mkWorld (activeRequests w) (signals w ++ [false])).

(** The [aborted] flag of a controller's signal in a given world. *)
Definition is_aborted (w : World) (controller : AbortController) : bool :=
  default false (signals w !! controller).

(** [controller.signal.aborted] *)
Definition signal_aborted (controller : AbortController) : M bool :=
  fun w => (Ret (is_aborted w controller), w).

(** [controller.abort()] *)
Definition abort (controller : AbortController) : M unit :=
  fun w => (Ret tt, mkWorld (activeRequests w) (<[controller := true]> (signals w))).

(** [this.activeRequests.set(requestId, controller)]: [Map.prototype.set]
    stores the value under the key, replacing any value already there. *)
Definition activeRequests_set (requestId : string) (controller : AbortController)
  : M unit :=
  fun w => (Ret tt, mkWorld (<[requestId := controller]> (activeRequests w)) (signals w)).

(** Modelled from the spec: [cleanupRequest] is a method of [BaseProvider],
    which is not among the sources.  It is the registry's [release(id)]:
    "removes the entry unconditionally; idempotent". *)
Definition cleanupRequest (requestId : string) : M unit :=
  fun w => (Ret tt, mkWorld (delete requestId (activeRequests w)) (signals w)).

(** Modelled from the spec: cancel-by-id is a method of [BaseProvider], which
    is not among the sources.  It is the registry's [cancel(id)]: "signals the
    handle if present; no-op (not an error) if absent". *)
Definition cancel (requestId : string) : M unit :=
  fun w =>
    match activeRequests w !! requestId with
    | Some controller => abort controller w
    | None => (Ret tt, w)
    end.

(** ** Data model *)

Inductive Role : Type := system | user | assistant | tool.

(** A conversation turn.  [extra] stands for whatever further properties the
    object carries besides [role] and [content]. *)
Record Message : Type := mkMessage {
  role : Role;
  content : string;
  extra : list (string * string)
}.

(** The object literal [{ role: msg.role, content: msg.content }]. *)
Record FormattedMessage : Type := mkFormatted {
  fm_role : Role;
  fm_content : string
}.

Record ToolCall : Type := mkToolCall {
  tc_id : string;
  tc_name : string;
  tc_arguments : string
}.

(** [ChatCompletionTool]: passed through, never inspected. *)
Record ChatCompletionTool : Type := mkTool {
  tool_name : string;
  tool_parameters : string
}.

Inductive ToolChoice : Type :=
| choice_auto
| choice_none
| choice_forced (name : string).

(** An object returned by [askTool].  A JavaScript object literal may leave a
    property out, so [tool_calls] is optional: [None] is the property being
    absent, [Some []] the empty array. *)
Record LLMResponse : Type := mkResponse {
  resp_content : string;
  tool_calls : option (list ToolCall)
}.

(** [LLMConfig]; [other] stands for the properties the constructor spreads
    through untouched ([...config]). *)
Record LLMConfig : Type := mkConfig {
  baseURL : option string;
  model : option string;
  other : list (string * string)
}.

(** [config: LLMConfig = {}] *)
Definition empty_config : LLMConfig := mkConfig None None [].

(** ** The constructor *)

(** The object handed to [super(...)], given the constructor argument and
    [process.env]. *)
Definition constructor (config : LLMConfig) (env : gmap string string) : LLMConfig :=
  mkConfig
    (Js.or (baseURL config)
       (Js.or (env !! "SILICONFLOW_API_BASE_URL")
          (Some "https://api.siliconflow.com/v1")))
    (Js.or (model config)
       (Js.or (env !! "SILICONFLOW_DEFAULT_MODEL")
          (Some "siliconflow-default")))
    (other config).

(** ** formatMessages *)

Definition formatMessages (messages : list Message) : list FormattedMessage :=
  map (fun msg => mkFormatted (role msg) (content msg)) messages.

(** ** Reading a caught value *)

Definition instanceof_Error (error : Value) : bool :=
  match error with
  | JsError _ _ | JsErrorOwn _ _ _ => true
  | JsOther _ | JsSymbol _ | JsUnconvertible _ => false
  end.

(** [error.name] and [error.message]; the source reads them only behind an
    [instanceof Error] test. *)
Definition error_name (error : Value) : string :=
  match error with
  | JsError name _ | JsErrorOwn name _ _ => name
  | JsOther _ | JsSymbol _ | JsUnconvertible _ => ""
  end.

Definition error_message (error : Value) : string :=
  match error with
  | JsError _ message | JsErrorOwn _ message _ => message
  | JsOther _ | JsSymbol _ | JsUnconvertible _ => ""
  end.

(** Lines 120-122, the two constants of [askTool]'s catch block:
    [error instanceof Error ? error.message : String(error)] and
    [error instanceof Error ? error.name : 'Unknown']. *)
Definition errorMessage (error : Value) : Conversion :=
  if instanceof_Error error then Text (error_message error) else String_ error.

Definition errorName (error : Value) : string :=
  if instanceof_Error error then error_name error else "Unknown".

(** ** The three operations *)

Section Operations.

(** The place where the backend request is awaited.  The source keeps the
    request itself as a comment (lines 56-63, 101-110 and 148-163), between
    the registration of the controller and the first statement after it.
    [pending] is whatever happens to the world while the operation stands
    there: other tasks run and may abort the controller, and the request may
    be rejected with a thrown value.  [ret tt] is the source as it stands. *)
Variable pending : M unit.

(** *** askLLMText *)

Definition askLLMText_try (messages : list Message) (requestId : string)
  : M string :=
  let formattedMessages := formatMessages messages in
  let* controller := new_AbortController in
  activeRequests_set requestId controller ;;
  pending ;;
  let* aborted := signal_aborted controller in
  when aborted (throw (new_Error "Request aborted")) ;;
  cleanupRequest requestId ;;
  ret "".

Definition askLLMText_catch (requestId : string) (error : Value) : M string :=
  cleanupRequest requestId ;;
  if instanceof_Error error &&
     (String.eqb (error_name error) "AbortError"
      || includes (error_message error) "aborted")
  then ret ""
  else
    let* text := convert (ToString error) in
    throw (new_Error ("Failed to get response from SiliconFlow: " +:+ text)).

Definition askLLMText (messages : list Message) (requestId : string)
  : M string :=
  try_catch (askLLMText_try messages requestId) (askLLMText_catch requestId).

(** *** askTool *)

Definition askTool_try (messages : list Message)
    (tools : list ChatCompletionTool) (requestId : string)
    (toolChoice : ToolChoice) : M LLMResponse :=
  let formattedMessages := formatMessages messages in
  let* controller := new_AbortController in
  activeRequests_set requestId controller ;;
  pending ;;
  let* aborted := signal_aborted controller in
  when aborted (throw (new_Error "Request aborted")) ;;
  cleanupRequest requestId ;;
  ret (mkResponse "" (Some [])).

Definition askTool_catch (requestId : string) (error : Value) : M LLMResponse :=
  cleanupRequest requestId ;;
  let* errorMessage := convert (errorMessage error) in
  let errorName := errorName error in
  if String.eqb errorName "AbortError" || includes errorMessage "aborted"
  then ret (mkResponse "" None)
  else throw (new_Error
                ("Failed to get tool response from SiliconFlow: " +:+ errorMessage)).

Definition askTool (messages : list Message)
    (tools : list ChatCompletionTool) (requestId : string)
    (toolChoice : ToolChoice) : M LLMResponse :=
  try_catch (askTool_try messages tools requestId toolChoice)
            (askTool_catch requestId).

(** *** askLLMTextStream *)

(** The generator's body.  It contains no active [yield]: it runs from
    start to end on the first [next()]. *)
Definition askLLMTextStream_try (messages : list Message) (requestId : string)
  : M unit :=
  let formattedMessages := formatMessages messages in
  let* controller := new_AbortController in
  activeRequests_set requestId controller ;;
  pending ;;
  cleanupRequest requestId.

Definition askLLMTextStream_catch (requestId : string) (error : Value) : M unit :=
  cleanupRequest requestId ;;
  if instanceof_Error error &&
     (String.eqb (error_name error) "AbortError"
      || includes (error_message error) "aborted")
  then ret tt
  else
    let* text := convert (ToString error) in
    throw (new_Error
             ("Failed to get stream response from SiliconFlow: " +:+ text)).

Definition askLLMTextStream_body (messages : list Message) (requestId : string)
  : M unit :=
  try_catch (askLLMTextStream_try messages requestId)
            (askLLMTextStream_catch requestId).

End Operations.

(** The source as it stands: nothing is awaited at the call site. *)
Definition nothing_pending : M unit := ret tt.

(** Lines 53-54, 98-99 and 145-146: the two statements with which every
    operation starts, under the registry's name for them. *)
Definition register (requestId : string) : M AbortController :=
  let* controller := new_AbortController in
  activeRequests_set requestId controller ;;
  ret controller.

(** ** The async generator returned by askLLMTextStream *)

(** Calling [askLLMTextStream] runs nothing: it returns a generator object
    that is suspended at the start of the body.  The body has no active
    [yield], so the generator is never suspended anywhere else. *)
Inductive GeneratorState : Type := SuspendedStart | Completed.

Inductive IteratorResult : Type :=
| Chunk (value : string)
| Done.

(** [generator.next()] *)
Definition generator_next (body : M unit) (g : GeneratorState) (w : World)
  : Outcome IteratorResult * GeneratorState * World :=
  match g with
  | SuspendedStart =>
      match body w with
      | (Ret _, w') => (Ret Done, Completed, w')
      | (Throw e, w') => (Throw e, Completed, w')
      end
  | Completed => (Ret Done, Completed, w)
  end.

(** [generator.return()]: a generator that has not started completes without
    running its body. *)
Definition generator_return (g : GeneratorState) (w : World)
  : Outcome IteratorResult * GeneratorState * World :=
  (Ret Done, Completed, w).

(** What a consumer may do with the generator, one call after the other. *)
Inductive ConsumerCall : Type := call_next | call_return.

Fixpoint consume (body : M unit) (calls : list ConsumerCall)
    (g : GeneratorState) (w : World) : GeneratorState * World :=
  match calls with
  | [] => (g, w)
  | call_next :: calls' =>
      let '(_, g', w') := generator_next body g w in consume body calls' g' w'
  | call_return :: calls' =>
      let '(_, g', w') := generator_return g w in consume body calls' g' w'
  end.

(** [for await (const chunk of generator) { chunks.push(chunk) }], with at
    most [fuel] calls of [next()]. *)
Fixpoint for_await (fuel : nat) (body : M unit) (g : GeneratorState) (w : World)
  : option (Outcome (list string) * World) :=
  match fuel with
  | O => None
  | S fuel' =>
      match generator_next body g w with
      | (Ret Done, _, w') => Some (Ret [], w')
      | (Throw e, _, w') => Some (Throw e, w')
      | (Ret (Chunk value), g', w') =>
          match for_await fuel' body g' w' with
          | Some (Ret chunks, w'') => Some (Ret (value :: chunks), w'')
          | other => other
          end
      end
  end.

(** ** What counts as a cancellation *)

(** The surface text the catch blocks look at. *)
Definition abort_text (name message : string) : Prop :=
  name = "AbortError" \/ exists before after, message = before +:+ "aborted" +:+ after.

(** [askLLMText] and [askLLMTextStream]: an [Error] object with that text. *)
Definition cancellation (error : Value) : Prop :=
  instanceof_Error error = true
  /\ abort_text (error_name error) (error_message error).

(** [askTool]: any thrown value of which [errorMessage] can be had, read
    through [errorName] and [errorMessage]. *)
Definition tool_cancellation (error : Value) : Prop :=
  exists text, errorMessage error = Text text
               /\ abort_text (errorName error) text.

(** The world after lines 53-54: a fresh controller stored under the id. *)
Definition registered (requestId : string) (w : World) : World :=
  mkWorld (<[requestId := length (signals w)]> (activeRequests w))
          (signals w ++ [false]).

(** The world once [requestId] has been released. *)
Definition released (requestId : string) (w : World) : World :=
  mkWorld (delete requestId (activeRequests w)) (signals w).

(** ** Callers *)

(** One call of the provider by a caller that waits for it to settle; the
    stream is drained with [for await]. *)
Inductive Operation : Type :=
| op_askLLMText (messages : list Message) (requestId : string)
| op_askTool (messages : list Message) (tools : list ChatCompletionTool)
    (requestId : string) (toolChoice : ToolChoice)
| op_askLLMTextStream (messages : list Message) (requestId : string).

Definition operation_id (op : Operation) : string :=
  match op with
  | op_askLLMText _ requestId => requestId
  | op_askTool _ _ requestId _ => requestId
  | op_askLLMTextStream _ requestId => requestId
  end.

(** The world in which the call leaves the provider. *)
Definition run_operation (pending : M unit) (op : Operation) (w : World) : World :=
  match op with
  | op_askLLMText messages requestId =>
      (askLLMText pending messages requestId w).2
  | op_askTool messages tools requestId toolChoice =>
      (askTool pending messages tools requestId toolChoice w).2
  | op_askLLMTextStream messages requestId =>
      (generator_next (askLLMTextStream_body pending messages requestId)
         SuspendedStart w).2
  end.

(** Calls made one after the other, each awaited before the next. *)
Definition run_operations (pending : M unit) (ops : list Operation) (w : World)
  : World :=
  fold_left (fun w' op => run_operation pending op w') ops w.

(** What [formatMessages] keeps of a message. *)
Definition role_and_content (msg : Message) : Role * string :=
  (role msg, content msg).

(** ** Settings given and not given *)

(** A setting counts as given when it is a non-empty string; [undefined] and
    the empty string both let [||] move on to the next operand. *)
Definition given (a : option string) (s : string) : Prop :=
  a = Some s /\ s <> "".

Definition not_given (a : option string) : Prop :=
  a = None \/ a = Some "".

(** ** Strings *)

Lemma append_String (x : Ascii.ascii) (a b : string) :
  String x a +:+ b = String x (a +:+ b).
Proof. reflexivity. Qed.

Lemma append_assoc (a b c : string) :
  (a +:+ b) +:+ c = a +:+ (b +:+ c).
Proof.
  induction a as [|x a IH]; [done | by rewrite !append_String, IH].
Qed.

Lemma prefix_spec (a b : string) :
  String.prefix a b = true <-> exists c, b = a +:+ c.
Proof.
  revert b. induction a as [|x a IH]; intros b.
  - split; [intros _; by exists b | by destruct b].
  - destruct b as [|y b]; simpl.
    + split; [done | intros [c Hc]; discriminate].
    + destruct (Ascii.ascii_dec x y) as [->|Hne].
      * rewrite IH. split; intros [c Hc]; exists c.
        -- by rewrite append_String, Hc.
        -- rewrite append_String in Hc. congruence.
      * split; [done | intros [c Hc]; rewrite append_String in Hc; congruence].
Qed.

Lemma includes_prefix (s sub : string) :
  String.prefix sub s = true -> includes s sub = true.
Proof. intros H. destruct s; cbn [includes]; by rewrite H. Qed.

Lemma includes_spec (s sub : string) :
  includes s sub = true <-> exists before after, s = before +:+ sub +:+ after.
Proof.
  split.
  - induction s as [|x s IH]; cbn [includes]; intros H.
    + apply orb_true_iff in H as [H|H]; [|done].
      apply prefix_spec in H as [c ->]. by exists "", c.
    + apply orb_true_iff in H as [H|H].
      * apply prefix_spec in H as [c ->]. by exists "", c.
      * destruct (IH H) as (before & after & ->).
        by exists (String x before), after.
  - intros (before & after & ->).
    induction before as [|x before IH].
    + apply includes_prefix, prefix_spec. by exists after.
    + rewrite append_String. cbn [includes]. rewrite IH. apply orb_true_r.
Qed.

Lemma includes_false (s sub : string) :
  includes s sub = false <->
  ~ exists before after, s = before +:+ sub +:+ after.
Proof.
  rewrite <- includes_spec. destruct (includes s sub); split; try done.
Qed.


(** ** The tests of the catch blocks, read as propositions *)

Lemma abort_text_test (name message : string) :
  String.eqb name "AbortError" || includes message "aborted" = true
  <-> abort_text name message.
Proof.
  unfold abort_text.
  rewrite orb_true_iff, String.eqb_eq, includes_spec. tauto.
Qed.

Lemma cancellation_test (error : Value) :
  instanceof_Error error &&
    (String.eqb (error_name error) "AbortError"
     || includes (error_message error) "aborted") = true
  <-> cancellation error.
Proof. unfold cancellation. by rewrite andb_true_iff, abort_text_test. Qed.

Lemma cancellation_or_not (e : Value) : cancellation e \/ ~ cancellation e.
Proof.
  destruct (instanceof_Error e &&
              (String.eqb (error_name e) "AbortError"
               || includes (error_message e) "aborted")) eqn:E.
  - left. by apply cancellation_test.
  - right. intros H%cancellation_test. congruence.
Qed.

Lemma tool_cancellation_or_not (e : Value) :
  tool_cancellation e \/ ~ tool_cancellation e.
Proof.
  unfold tool_cancellation. destruct (errorMessage e) as [text|thrown].
  - destruct (String.eqb (errorName e) "AbortError" || includes text "aborted")
      eqn:E.
    + left. exists text. split; [done|]. by apply abort_text_test.
    + right. intros (text' & [= <-] & H%abort_text_test). congruence.
  - right. by intros (text & ? & _).
Qed.

(** An [Error] object is an abort for [askTool] exactly when it is one for
    the other two operations. *)
Lemma cancellation_tool (error : Value) :
  cancellation error -> tool_cancellation error.
Proof.
  intros [Hi Ht]. exists (error_message error).
  unfold errorMessage, errorName. by rewrite Hi.
Qed.

(** ** try/catch *)

Lemma try_catch_ret {A} (body : M A) (handler : Value -> M A) w a w' :
  body w = (Ret a, w') -> try_catch body handler w = (Ret a, w').
Proof. unfold try_catch. by intros ->. Qed.

Lemma try_catch_throw {A} (body : M A) (handler : Value -> M A) w e w' :
  body w = (Throw e, w') -> try_catch body handler w = handler e w'.
Proof. unfold try_catch. by intros ->. Qed.

Lemma bind_ret {A B} (m : M A) (k : A -> M B) w a w' :
  m w = (Ret a, w') -> bind m k w = k a w'.
Proof. unfold bind. by intros ->. Qed.

Lemma bind_throw {A B} (m : M A) (k : A -> M B) w e w' :
  m w = (Throw e, w') -> bind m k w = (Throw e, w').
Proof. unfold bind. by intros ->. Qed.

(** ** The catch blocks *)

Section CatchBlocks.

Variables (requestId : string) (error : Value) (w : World).

Lemma askLLMText_catch_cancelled :
  cancellation error ->
  askLLMText_catch requestId error w = (Ret "", released requestId w).
Proof.
  intros H%cancellation_test. unfold askLLMText_catch, bind. simpl.
  by rewrite H.
Qed.

(** Not a cancellation: the outcome is that of the template literal. *)
Lemma askLLMText_catch_not_cancelled :
  ~ cancellation error ->
  askLLMText_catch requestId error w =
    (match ToString error with
     | Text text =>
         Throw (JsError "Error"
                  ("Failed to get response from SiliconFlow: " +:+ text))
     | Raises thrown => Throw thrown
     end, released requestId w).
Proof.
  intros H. unfold askLLMText_catch, bind. simpl.
  destruct (_ && _) eqn:E; [by apply cancellation_test in E|].
  by destruct (ToString error).
Qed.

Lemma askTool_catch_cancelled :
  tool_cancellation error ->
  askTool_catch requestId error w =
    (Ret (mkResponse "" None), released requestId w).
Proof.
  intros (text & Hm & Ht%abort_text_test).
  unfold askTool_catch, bind. simpl. rewrite Hm. simpl. by rewrite Ht.
Qed.

Lemma askTool_catch_not_cancelled :
  ~ tool_cancellation error ->
  askTool_catch requestId error w =
    (match errorMessage error with
     | Text text =>
         Throw (JsError "Error"
                  ("Failed to get tool response from SiliconFlow: " +:+ text))
     | Raises thrown => Throw thrown
     end, released requestId w).
Proof.
  intros H. unfold askTool_catch, bind. simpl.
  destruct (errorMessage error) as [text|thrown] eqn:Hm; simpl; [|done].
  destruct (_ || _) eqn:E; [|done].
  destruct H. exists text. split; [done|]. by apply abort_text_test.
Qed.

Lemma askLLMTextStream_catch_cancelled :
  cancellation error ->
  askLLMTextStream_catch requestId error w = (Ret tt, released requestId w).
Proof.
  intros H%cancellation_test. unfold askLLMTextStream_catch, bind. simpl.
  by rewrite H.
Qed.

Lemma askLLMTextStream_catch_not_cancelled :
  ~ cancellation error ->
  askLLMTextStream_catch requestId error w =
    (match ToString error with
     | Text text =>
         Throw (JsError "Error"
                  ("Failed to get stream response from SiliconFlow: " +:+ text))
     | Raises thrown => Throw thrown
     end, released requestId w).
Proof.
  intros H. unfold askLLMTextStream_catch, bind. simpl.
  destruct (_ && _) eqn:E; [by apply cancellation_test in E|].
  by destruct (ToString error).
Qed.

(** Whatever is caught, the entry is gone when the catch block is left. *)
Lemma catch_blocks_release :
  (askLLMText_catch requestId error w).2 = released requestId w
  /\ (askTool_catch requestId error w).2 = released requestId w
  /\ (askLLMTextStream_catch requestId error w).2 = released requestId w.
Proof.
  split_and!.
  - destruct (cancellation_or_not error) as [H|H].
    + by rewrite askLLMText_catch_cancelled.
    + by rewrite askLLMText_catch_not_cancelled.
  - destruct (tool_cancellation_or_not error) as [H|H].
    + by rewrite askTool_catch_cancelled.
    + by rewrite askTool_catch_not_cancelled.
  - destruct (cancellation_or_not error) as [H|H].
    + by rewrite askLLMTextStream_catch_cancelled.
    + by rewrite askLLMTextStream_catch_not_cancelled.
Qed.

End CatchBlocks.

Lemma released_lookup (requestId : string) (w : World) :
  activeRequests (released requestId w) !! requestId = None.
Proof. apply lookup_delete_eq. Qed.

(** ** Registration *)

Lemma register_eq (requestId : string) (w : World) :
  register requestId w = (Ret (length (signals w)), registered requestId w).
Proof. reflexivity. Qed.

(** Every try block starts with the registration. *)
Lemma try_blocks_register pending messages tools requestId toolChoice :
  askLLMText_try pending messages requestId =
    (let* controller := register requestId in
     pending ;;
     let* aborted := signal_aborted controller in
     when aborted (throw (new_Error "Request aborted")) ;;
     cleanupRequest requestId ;;
     ret "")
  /\ askTool_try pending messages tools requestId toolChoice =
    (let* controller := register requestId in
     pending ;;
     let* aborted := signal_aborted controller in
     when aborted (throw (new_Error "Request aborted")) ;;
     cleanupRequest requestId ;;
     ret (mkResponse "" (Some [])))
  /\ askLLMTextStream_try pending messages requestId =
    (let* controller := register requestId in
     pending ;;
     cleanupRequest requestId).
Proof. done. Qed.

(** ** The try blocks, case by case *)

Section TryBlocks.

Variables (pending : M unit) (messages : list Message)
          (tools : list ChatCompletionTool) (toolChoice : ToolChoice)
          (requestId : string) (w w2 : World).

(** What is left of each try block at the call site. *)
Lemma try_blocks_at_call_site :
  askLLMText_try pending messages requestId w =
    (pending ;;
     let* aborted := signal_aborted (length (signals w)) in
     when aborted (throw (new_Error "Request aborted")) ;;
     cleanupRequest requestId ;;
     ret "") (registered requestId w)
  /\ askTool_try pending messages tools requestId toolChoice w =
    (pending ;;
     let* aborted := signal_aborted (length (signals w)) in
     when aborted (throw (new_Error "Request aborted")) ;;
     cleanupRequest requestId ;;
     ret (mkResponse "" (Some []))) (registered requestId w)
  /\ askLLMTextStream_try pending messages requestId w =
    (pending ;; cleanupRequest requestId) (registered requestId w).
Proof. done. Qed.

(** The awaited request is rejected with [e]. *)
Lemma try_blocks_rejected e :
  pending (registered requestId w) = (Throw e, w2) ->
  askLLMText_try pending messages requestId w = (Throw e, w2)
  /\ askTool_try pending messages tools requestId toolChoice w = (Throw e, w2)
  /\ askLLMTextStream_try pending messages requestId w = (Throw e, w2).
Proof.
  intros H. destruct try_blocks_at_call_site as (-> & -> & ->).
  by rewrite !(bind_throw _ _ _ _ _ H).
Qed.

(** It resolves and the signal is found aborted. *)
Lemma try_blocks_aborted :
  pending (registered requestId w) = (Ret tt, w2) ->
  is_aborted w2 (length (signals w)) = true ->
  askLLMText_try pending messages requestId w
    = (Throw (JsError "Error" "Request aborted"), w2)
  /\ askTool_try pending messages tools requestId toolChoice w
    = (Throw (JsError "Error" "Request aborted"), w2)
  /\ askLLMTextStream_try pending messages requestId w
    = (Ret tt, released requestId w2).
Proof.
  intros H Hs. destruct try_blocks_at_call_site as (-> & -> & ->).
  rewrite !(bind_ret _ _ _ _ _ H).
  unfold bind, signal_aborted. by rewrite Hs.
Qed.

(** It resolves and the signal is not aborted. *)
Lemma try_blocks_completed :
  pending (registered requestId w) = (Ret tt, w2) ->
  is_aborted w2 (length (signals w)) = false ->
  askLLMText_try pending messages requestId w
    = (Ret "", released requestId w2)
  /\ askTool_try pending messages tools requestId toolChoice w
    = (Ret (mkResponse "" (Some [])), released requestId w2)
  /\ askLLMTextStream_try pending messages requestId w
    = (Ret tt, released requestId w2).
Proof.
  intros H Hs. destruct try_blocks_at_call_site as (-> & -> & ->).
  rewrite !(bind_ret _ _ _ _ _ H).
  unfold bind, signal_aborted. by rewrite Hs.
Qed.

End TryBlocks.

(** The world in which an operation ends: the one the awaited request left,
    with the entry released. *)
Lemma final_world pending messages tools toolChoice requestId w :
  let w2 := (pending (registered requestId w)).2 in
  (askLLMText pending messages requestId w).2 = released requestId w2
  /\ (askTool pending messages tools requestId toolChoice w).2
     = released requestId w2
  /\ (askLLMTextStream_body pending messages requestId w).2
     = released requestId w2.
Proof.
  simpl.
  destruct (pending (registered requestId w)) as [[[]|e] w2] eqn:H; simpl.
  - destruct (is_aborted w2 (length (signals w))) eqn:Hs.
    + destruct (try_blocks_aborted pending messages tools toolChoice
                  requestId w w2 H Hs) as (H1 & H2 & H3).
      unfold askLLMText, askTool, askLLMTextStream_body.
      rewrite (try_catch_throw _ _ _ _ _ H1), (try_catch_throw _ _ _ _ _ H2),
        (try_catch_ret _ _ _ _ _ H3).
      destruct (catch_blocks_release requestId
                  (JsError "Error" "Request aborted") w2) as (-> & -> & _).
      done.
    + destruct (try_blocks_completed pending messages tools toolChoice
                  requestId w w2 H Hs) as (H1 & H2 & H3).
      unfold askLLMText, askTool, askLLMTextStream_body.
      by rewrite (try_catch_ret _ _ _ _ _ H1), (try_catch_ret _ _ _ _ _ H2),
        (try_catch_ret _ _ _ _ _ H3).
  - destruct (try_blocks_rejected pending messages tools toolChoice
                requestId w w2 e H) as (H1 & H2 & H3).
    unfold askLLMText, askTool, askLLMTextStream_body.
    rewrite (try_catch_throw _ _ _ _ _ H1), (try_catch_throw _ _ _ _ _ H2),
      (try_catch_throw _ _ _ _ _ H3).
    by destruct (catch_blocks_release requestId e w2) as (-> & -> & ->).
Qed.

(** ** The generator *)

Lemma consume_completed (body : M unit) (calls : list ConsumerCall) (w : World) :
  consume body calls Completed w = (Completed, w).
Proof. induction calls as [|[] calls IH]; simpl; auto. Qed.

Lemma consume_started (body : M unit) (calls : list ConsumerCall) (w : World) :
  consume body (call_next :: calls) SuspendedStart w = (Completed, (body w).2).
Proof.
  simpl. destruct (body w) as [[[]|e] w']; simpl; apply consume_completed.
Qed.

Lemma consume_abandoned (body : M unit) (calls : list ConsumerCall) (w : World) :
  consume body (call_return :: calls) SuspendedStart w = (Completed, w).
Proof. simpl. apply consume_completed. Qed.

Lemma for_await_done (body : M unit) (fuel : nat) (w w' : World) :
  body w = (Ret tt, w') ->
  for_await (S fuel) body SuspendedStart w = Some (Ret [], w').
Proof. simpl. by intros ->. Qed.

Lemma for_await_rejected (body : M unit) (fuel : nat) (w w' : World) e :
  body w = (Throw e, w') ->
  for_await (S fuel) body SuspendedStart w = Some (Throw e, w').
Proof. simpl. by intros ->. Qed.

(** ** The source as it stands, on small inputs *)

Example includes_aborted :
  includes "Request aborted" "aborted" = true
  /\ includes "The user aborted a request." "aborted" = true
  /\ includes "Aborted" "aborted" = false
  /\ includes "fetch failed" "aborted" = false.
Proof. by vm_compute. Qed.

Example template_literal :
  ToString (JsError "TypeError" "fetch failed") = Text "TypeError: fetch failed"
  /\ ToString (JsError "Error" "") = Text "Error"
  /\ ToString (JsErrorOwn "TypeError" "bad url"
                 (Text "TypeError [ERR_INVALID_URL]: bad url"))
     = Text "TypeError [ERR_INVALID_URL]: bad url"
  /\ ToString (JsOther "timeout") = Text "timeout"
  /\ ToString (JsSymbol "boom") = Raises symbol_conversion_error
  /\ String_ (JsSymbol "boom") = Text "Symbol(boom)".
Proof. by vm_compute. Qed.

Example askLLMText_runs :
  askLLMText nothing_pending [mkMessage user "hello" []] "req-1" initial_world
  = (Ret "", mkWorld (delete "req-1" {["req-1" := 0]}) [false]).
Proof. reflexivity. Qed.

Example askTool_wraps_thrown_string :
  (askTool (throw (JsOther "quota exceeded")) [] [] "req-1" choice_auto
     initial_world).1
  = Throw (JsError "Error"
             "Failed to get tool response from SiliconFlow: quota exceeded").
Proof. reflexivity. Qed.

Example thrown_string_aborted :
  (askTool (throw (JsOther "aborted")) [] [] "req-1" choice_auto
     initial_world).1
  = Ret (mkResponse "" None)
  /\ (askLLMText (throw (JsOther "aborted")) [] "req-1" initial_world).1
     = Throw (JsError "Error"
                "Failed to get response from SiliconFlow: aborted").
Proof. split; reflexivity. Qed.

Example thrown_symbol :
  (askLLMText (throw (JsSymbol "boom")) [] "req-1" initial_world).1
  = Throw (JsError "TypeError" "Cannot convert a Symbol value to a string")
  /\ (askTool (throw (JsSymbol "boom")) [] [] "req-1" choice_auto
        initial_world).1
     = Throw (JsError "Error"
                "Failed to get tool response from SiliconFlow: Symbol(boom)").
Proof. split; reflexivity. Qed.

Example stream_is_empty :
  for_await 1 (askLLMTextStream_body nothing_pending [] "req-1")
    SuspendedStart initial_world
  = Some (Ret [], mkWorld (delete "req-1" {["req-1" := 0]}) [false]).
Proof. reflexivity. Qed.

(** ** Claims *)

(** C1. Whatever happens at the call site (the awaited request resolving,
    being rejected, or the signal being aborted meanwhile), once [askLLMText]
    or [askTool] has settled the registry has no entry for its request id.
    The same holds for [askLLMTextStream] under every sequence of consumer
    calls that starts the generator; a consumer that abandons the generator
    before its first [next()] never runs the body, and the world is left as
    it was. *)
Theorem registry_released (pending : M unit) (messages : list Message)
    (tools : list ChatCompletionTool) (toolChoice : ToolChoice)
    (requestId : string) (w : World) :
  activeRequests (askLLMText pending messages requestId w).2 !! requestId = None
  /\ activeRequests (askTool pending messages tools requestId toolChoice w).2
       !! requestId = None
  /\ (forall calls : list ConsumerCall,
        activeRequests
          (consume (askLLMTextStream_body pending messages requestId)
                   (call_next :: calls) SuspendedStart w).2 !! requestId = None)
  /\ (forall calls : list ConsumerCall,
        consume (askLLMTextStream_body pending messages requestId)
                (call_return :: calls) SuspendedStart w = (Completed, w)).
Proof.
  destruct (final_world pending messages tools toolChoice requestId w)
    as (H1 & H2 & H3).
  split_and!.
  - rewrite H1. apply released_lookup.
  - rewrite H2. apply released_lookup.
  - intros calls. rewrite consume_started. simpl. rewrite H3.
    apply released_lookup.
  - intros calls. apply consume_abandoned.
Qed.

(** C2, as the code has it.  Registering an id that is already in the
    registry does not fail: a fresh controller, not yet aborted, is stored
    under the id in place of the old one, the old controller's signal is left
    as it was, and the operations of the source as it stands run to their
    normal result. *)
Theorem register_replaces_handle (requestId : string) (w : World)
    (old : AbortController) (messages : list Message)
    (tools : list ChatCompletionTool) (toolChoice : ToolChoice) :
  activeRequests w !! requestId = Some old ->
  old < length (signals w) ->
  let fresh := length (signals w) in
  register requestId w = (Ret fresh, registered requestId w)
  /\ activeRequests (registered requestId w) !! requestId = Some fresh
  /\ fresh <> old
  /\ is_aborted (registered requestId w) fresh = false
  /\ is_aborted (registered requestId w) old = is_aborted w old
  /\ askLLMText nothing_pending messages requestId w
     = (Ret "", released requestId (registered requestId w))
  /\ askTool nothing_pending messages tools requestId toolChoice w
     = (Ret (mkResponse "" (Some [])), released requestId (registered requestId w))
  /\ generator_next (askLLMTextStream_body nothing_pending messages requestId)
       SuspendedStart w
     = (Ret Done, Completed, released requestId (registered requestId w)).
Proof.
  intros Hold Hlt fresh.
  assert (is_aborted (registered requestId w) fresh = false) as Hfresh.
  { unfold is_aborted, registered, fresh. simpl.
    by rewrite lookup_app_r, Nat.sub_diag by lia. }
  destruct (try_blocks_completed nothing_pending messages tools toolChoice
              requestId w (registered requestId w) eq_refl Hfresh)
    as (H1 & H2 & H3).
  split_and!.
  - done.
  - unfold registered. simpl. apply lookup_insert_eq.
  - unfold fresh. lia.
  - done.
  - unfold is_aborted, registered. simpl. by rewrite lookup_app_l.
  - by apply try_catch_ret.
  - by apply try_catch_ret.
  - unfold generator_next, askLLMTextStream_body.
    by rewrite (try_catch_ret _ _ _ _ _ H3).
Qed.

Lemma register_replaces_handle_witness :
  let w0 := mkWorld {["req-1" := 0]} [false] in
  activeRequests w0 !! "req-1" = Some 0
  /\ 0 < length (signals w0)
  /\ activeRequests (registered "req-1" w0) !! "req-1" = Some 1
  /\ askLLMText nothing_pending [] "req-1" w0
     = (Ret "", released "req-1" (registered "req-1" w0)).
Proof.
  intros w0.
  assert (activeRequests w0 !! "req-1" = Some 0) as H1 by (vm_compute; reflexivity).
  assert (0 < length (signals w0)) as H2 by (simpl; lia).
  split; [exact H1|]. split; [exact H2|].
  pose proof (register_replaces_handle "req-1" w0 0 [] [] choice_auto H1 H2) as H.
  simpl in H. split; [apply H | apply H].
Defined.

(** C2, as the claim has it, fails.  With ["req-1"] registered to controller
    [0], registering it again returns normally with controller [1] stored in
    its place, and [askLLMText] started under the same id returns [""]:
    neither throws anything. *)
Lemma duplicate_request_not_rejected :
  let w0 := mkWorld {["req-1" := 0]} [false] in
  activeRequests w0 !! "req-1" = Some 0
  /\ (exists w1, register "req-1" w0 = (Ret 1, w1)
                 /\ activeRequests w1 !! "req-1" = Some 1)
  /\ (askLLMText nothing_pending [] "req-1" w0).1 = Ret ""
  /\ ~ (exists e w1, register "req-1" w0 = (Throw e, w1)).
Proof.
  intros w0. split_and!.
  - vm_compute; reflexivity.
  - eexists. split; [reflexivity | vm_compute; reflexivity].
  - reflexivity.
  - intros (e & w1 & H). discriminate H.
Qed.

(** ** Cancellation *)

(** The error thrown by the abort check is itself read as a cancellation. *)
Lemma request_aborted_cancellation :
  cancellation (JsError "Error" "Request aborted").
Proof. split; [done|]. right. by exists "Request ", "". Qed.

Lemma generator_next_start (body : M unit) (w : World) :
  generator_next body SuspendedStart w =
    match body w with
    | (Ret _, w') => (Ret Done, Completed, w')
    | (Throw e, w') => (Throw e, Completed, w')
    end.
Proof. reflexivity. Qed.

(** How an operation ends once its try block has thrown a cancellation. *)
Lemma cancelled_run pending messages tools toolChoice requestId w e w2 :
  askLLMText_try pending messages requestId w = (Throw e, w2) ->
  askTool_try pending messages tools requestId toolChoice w = (Throw e, w2) ->
  cancellation e ->
  askLLMText pending messages requestId w = (Ret "", released requestId w2)
  /\ askTool pending messages tools requestId toolChoice w
     = (Ret (mkResponse "" None), released requestId w2).
Proof.
  intros H1 H2 Hc. unfold askLLMText, askTool.
  rewrite (try_catch_throw _ _ _ _ _ H1), (try_catch_throw _ _ _ _ _ H2).
  split; [by apply askLLMText_catch_cancelled|].
  by apply askTool_catch_cancelled, cancellation_tool.
Qed.

(** The awaited request resolves. *)
Lemma resolved_run pending messages tools toolChoice requestId w w2 :
  pending (registered requestId w) = (Ret tt, w2) ->
  askLLMText pending messages requestId w = (Ret "", released requestId w2)
  /\ askTool pending messages tools requestId toolChoice w
     = (Ret (mkResponse ""
               (if is_aborted w2 (length (signals w)) then None else Some [])),
        released requestId w2)
  /\ askLLMTextStream_body pending messages requestId w
     = (Ret tt, released requestId w2).
Proof.
  intros H. destruct (is_aborted w2 (length (signals w))) eqn:Hs.
  - destruct (try_blocks_aborted pending messages tools toolChoice requestId
                w w2 H Hs) as (H1 & H2 & H3).
    destruct (cancelled_run _ _ _ _ _ _ _ _ H1 H2 request_aborted_cancellation)
      as (R1 & R2).
    split_and!; [done | done | by apply try_catch_ret].
  - destruct (try_blocks_completed pending messages tools toolChoice requestId
                w w2 H Hs) as (H1 & H2 & H3).
    split_and!; by apply try_catch_ret.
Qed.

(** The awaited request is rejected: the catch block decides. *)
Lemma rejected_run pending messages tools toolChoice requestId w w2 e :
  pending (registered requestId w) = (Throw e, w2) ->
  askLLMText pending messages requestId w = askLLMText_catch requestId e w2
  /\ askTool pending messages tools requestId toolChoice w
     = askTool_catch requestId e w2
  /\ askLLMTextStream_body pending messages requestId w
     = askLLMTextStream_catch requestId e w2.
Proof.
  intros H.
  destruct (try_blocks_rejected pending messages tools toolChoice requestId
              w w2 e H) as (H1 & H2 & H3).
  split_and!; by apply try_catch_throw.
Qed.

(** C3. When the awaited request is rejected with an abort, that is, with an
    [Error] object named ["AbortError"] or whose message contains
    ["aborted"], every operation settles normally with its neutral result:
    [""] for [askLLMText], [{ content: '' }] for [askTool], a generator that
    is done without a fragment for [askLLMTextStream].  The abort test comes
    before the wrapping into a failure, so nothing is thrown. *)
Theorem abort_classified_as_cancellation (pending : M unit)
    (messages : list Message) (tools : list ChatCompletionTool)
    (toolChoice : ToolChoice) (requestId : string) (w w2 : World) (e : Value) :
  pending (registered requestId w) = (Throw e, w2) ->
  cancellation e ->
  askLLMText pending messages requestId w = (Ret "", released requestId w2)
  /\ askTool pending messages tools requestId toolChoice w
     = (Ret (mkResponse "" None), released requestId w2)
  /\ generator_next (askLLMTextStream_body pending messages requestId)
       SuspendedStart w
     = (Ret Done, Completed, released requestId w2)
  /\ (forall fuel : nat,
        for_await (S fuel) (askLLMTextStream_body pending messages requestId)
          SuspendedStart w
        = Some (Ret [], released requestId w2)).
Proof.
  intros H Hc.
  destruct (try_blocks_rejected pending messages tools toolChoice requestId
              w w2 e H) as (H1 & H2 & H3).
  destruct (cancelled_run _ _ _ _ _ _ _ _ H1 H2 Hc) as (R1 & R2).
  assert (askLLMTextStream_body pending messages requestId w
          = (Ret tt, released requestId w2)) as R3.
  { unfold askLLMTextStream_body. rewrite (try_catch_throw _ _ _ _ _ H3).
    by apply askLLMTextStream_catch_cancelled. }
  split_and!; [done | done | |].
  - by rewrite generator_next_start, R3.
  - intros fuel. by apply for_await_done.
Qed.

Lemma abort_classified_as_cancellation_witness :
  let e := JsError "AbortError" "This operation was aborted" in
  let pending : M unit := throw e in
  pending (registered "req-1" initial_world)
    = (Throw e, registered "req-1" initial_world)
  /\ cancellation e
  /\ askLLMText pending [] "req-1" initial_world
     = (Ret "", released "req-1" (registered "req-1" initial_world))
  /\ askTool pending [] [] "req-1" choice_auto initial_world
     = (Ret (mkResponse "" None),
        released "req-1" (registered "req-1" initial_world)).
Proof.
  intros e pending.
  assert (pending (registered "req-1" initial_world)
          = (Throw e, registered "req-1" initial_world)) as H by reflexivity.
  assert (cancellation e) as Hc.
  { split; [reflexivity | left; reflexivity]. }
  split; [exact H|]. split; [exact Hc|].
  pose proof (abort_classified_as_cancellation pending [] [] choice_auto
                "req-1" initial_world _ e H Hc) as (R1 & R2 & _).
  split; [exact R1 | exact R2].
Defined.




(** ** Failures *)





(** C10. Whether a caught error is a cancellation is read off its name and
    message alone.  Let the awaited request be rejected with an [Error] named
    ["AbortError"], or whose message contains ["aborted"], while nobody
    aborts the request's controller: the controller's signal is still not
    aborted when the operation ends, and yet each operation settles with its
    neutral result instead of throwing. *)
Theorem cancellation_read_from_error_text (messages : list Message)
    (tools : list ChatCompletionTool) (toolChoice : ToolChoice)
    (requestId : string) (w : World) (name message : string) :
  abort_text name message ->
  let rejected : M unit := throw (JsError name message) in
  let w' := released requestId (registered requestId w) in
  is_aborted w' (length (signals w)) = false
  /\ askLLMText rejected messages requestId w = (Ret "", w')
  /\ askTool rejected messages tools requestId toolChoice w
     = (Ret (mkResponse "" None), w')
  /\ generator_next (askLLMTextStream_body rejected messages requestId)
       SuspendedStart w
     = (Ret Done, Completed, w').
Proof.
  intros Ht rejected w'.
  assert (cancellation (JsError name message)) as Hc by (by split).
  assert (rejected (registered requestId w)
          = (Throw (JsError name message), registered requestId w)) as H
    by reflexivity.
  destruct (try_blocks_rejected rejected messages tools toolChoice requestId
              w _ _ H) as (H1 & H2 & H3).
  destruct (cancelled_run _ _ _ _ _ _ _ _ H1 H2 Hc) as (R1 & R2).
  split_and!; [| done | done |].
  - unfold is_aborted, w', released, registered. simpl.
    by rewrite lookup_app_r, Nat.sub_diag by lia.
  - rewrite generator_next_start. unfold askLLMTextStream_body.
    rewrite (try_catch_throw _ _ _ _ _ H3).
    by rewrite askLLMTextStream_catch_cancelled.
Qed.

Lemma cancellation_read_from_error_text_witness :
  let message := "socket hang up: connection aborted by peer" in
  abort_text "Error" message
  /\ askLLMText (throw (JsError "Error" message)) [] "req-1" initial_world
     = (Ret "", released "req-1" (registered "req-1" initial_world))
  /\ is_aborted (released "req-1" (registered "req-1" initial_world)) 0 = false.
Proof.
  intros message.
  assert (abort_text "Error" message) as Ht
    by (right; exists "socket hang up: connection ", " by peer"; reflexivity).
  split; [exact Ht|].
  pose proof (cancellation_read_from_error_text [] [] choice_auto "req-1"
                initial_world "Error" message Ht) as (R0 & R1 & _).
  split; [exact R1 | exact R0].
Defined.

(** ** The responses of askTool *)

(** A response comes from line 117, at the end of the try block, or from
    line 125, in the catch block. *)
Lemma askTool_returns pending messages tools toolChoice requestId w resp w' :
  askTool pending messages tools requestId toolChoice w = (Ret resp, w') ->
  (askTool_try pending messages tools requestId toolChoice w = (Ret resp, w')
   /\ resp = mkResponse "" (Some []))
  \/ (exists e w2,
        askTool_try pending messages tools requestId toolChoice w = (Throw e, w2)
        /\ tool_cancellation e
        /\ resp = mkResponse "" None).
Proof.
  intros H.
  destruct (pending (registered requestId w)) as [[[]|e] w2] eqn:Hp.
  - destruct (is_aborted w2 (length (signals w))) eqn:Hs.
    + destruct (try_blocks_aborted pending messages tools toolChoice
                  requestId w w2 Hp Hs) as (_ & H2 & _).
      right. exists (JsError "Error" "Request aborted"), w2.
      pose proof (cancellation_tool _ request_aborted_cancellation) as Hc.
      split_and!; [done | done |].
      unfold askTool in H. rewrite (try_catch_throw _ _ _ _ _ H2) in H.
      rewrite askTool_catch_cancelled in H by done. congruence.
    + destruct (try_blocks_completed pending messages tools toolChoice
                  requestId w w2 Hp Hs) as (_ & H2 & _).
      left. unfold askTool in H. rewrite (try_catch_ret _ _ _ _ _ H2) in H.
      split; congruence.
  - destruct (try_blocks_rejected pending messages tools toolChoice
                requestId w w2 e Hp) as (_ & H2 & _).
    unfold askTool in H. rewrite (try_catch_throw _ _ _ _ _ H2) in H.
    destruct (tool_cancellation_or_not e) as [Hc|Hn].
    + right. exists e, w2.
      rewrite askTool_catch_cancelled in H by done.
      split_and!; [done | done | congruence].
    + rewrite askTool_catch_not_cancelled in H by done.
      destruct (errorMessage e); discriminate H.
Qed.

(** C7, as the code has it.  Every response [askTool] returns has a
    [content], the empty string.  A response returned at the end of the try
    block has [tool_calls] present and empty; a response returned from the
    catch block, on cancellation, is [{ content: '' }] with no [tool_calls]
    property. *)
Theorem askTool_response_shape (pending : M unit) (messages : list Message)
    (tools : list ChatCompletionTool) (toolChoice : ToolChoice)
    (requestId : string) (w w' : World) (resp : LLMResponse) :
  askTool pending messages tools requestId toolChoice w = (Ret resp, w') ->
  resp_content resp = ""
  /\ ((askTool_try pending messages tools requestId toolChoice w
       = (Ret resp, w')
       /\ tool_calls resp = Some [])
      \/ (exists e w2,
            askTool_try pending messages tools requestId toolChoice w
            = (Throw e, w2)
            /\ tool_cancellation e
            /\ tool_calls resp = None)).
Proof.
  intros H.
  destruct (askTool_returns _ _ _ _ _ _ _ _ H)
    as [(Ht & ->)|(e & w2 & Ht & Hc & ->)].
  - split; [done|]. by left.
  - split; [done|]. right. by exists e, w2.
Qed.

Lemma askTool_response_shape_witness :
  let w' := released "req-1" (registered "req-1" initial_world) in
  askTool nothing_pending [] [] "req-1" choice_auto initial_world
  = (Ret (mkResponse "" (Some [])), w')
  /\ resp_content (mkResponse "" (Some [])) = "".
Proof.
  intros w'.
  assert (askTool nothing_pending [] [] "req-1" choice_auto initial_world
          = (Ret (mkResponse "" (Some [])), w')) as H by reflexivity.
  split; [exact H|].
  exact (proj1 (askTool_response_shape nothing_pending [] [] choice_auto
                  "req-1" initial_world w' _ H)).
Defined.

(** C7, as the claim has it, fails on the cancellation path.  When the
    awaited request is rejected with an [AbortError], and likewise when the
    request is cancelled by id while it is awaited, [askTool] returns
    [{ content: '' }]: the response has no [tool_calls] property. *)
Lemma askTool_cancelled_response_without_tool_calls :
  (askTool (throw (JsError "AbortError" "This operation was aborted"))
     [] [] "req-1" choice_auto initial_world).1
  = Ret (mkResponse "" None)
  /\ (askTool (cancel "req-1") [] [] "req-1" choice_auto initial_world).1
     = Ret (mkResponse "" None)
  /\ tool_calls (mkResponse "" None) = None.
Proof. split_and!; reflexivity. Qed.

(** C9. Under [toolChoice = 'none'] no response of [askTool] carries a tool
    call: the source as it stands returns [tool_calls = []], and whatever
    happens at the call site, a [tool_calls] sequence in a returned response
    is empty. *)
Theorem toolChoice_none_no_tool_calls (messages : list Message)
    (tools : list ChatCompletionTool) (requestId : string) (w : World) :
  askTool nothing_pending messages tools requestId choice_none w
  = (Ret (mkResponse "" (Some [])),
     released requestId (registered requestId w))
  /\ (forall (pending : M unit) (resp : LLMResponse) (w' : World)
             (calls : list ToolCall),
        askTool pending messages tools requestId choice_none w = (Ret resp, w') ->
        tool_calls resp = Some calls ->
        calls = []).
Proof.
  split.
  - assert (is_aborted (registered requestId w) (length (signals w)) = false)
      as Hs.
    { unfold is_aborted, registered. simpl.
      by rewrite lookup_app_r, Nat.sub_diag by lia. }
    destruct (try_blocks_completed nothing_pending messages tools choice_none
                requestId w (registered requestId w) eq_refl Hs)
      as (_ & H2 & _).
    by apply try_catch_ret.
  - intros pending resp w' calls H Hcalls.
    destruct (askTool_returns _ _ _ _ _ _ _ _ H)
      as [(_ & ->)|(e & w2 & _ & _ & ->)]; simpl in Hcalls; congruence.
Qed.

Lemma toolChoice_none_no_tool_calls_witness :
  let tools := [mkTool "search" "{}"] in
  let messages := [mkMessage user "find it" []] in
  (askTool nothing_pending messages tools "req-1" choice_none initial_world).1
  = Ret (mkResponse "" (Some []))
  /\ (forall calls,
        Some ([] : list ToolCall) = Some calls -> calls = []).
Proof.
  intros tools messages.
  pose proof (toolChoice_none_no_tool_calls messages tools "req-1"
                initial_world) as (R1 & R2).
  split.
  - exact (f_equal fst R1).
  - intros calls Hcalls.
    exact (R2 nothing_pending (mkResponse "" (Some [])) _ calls R1 Hcalls).
Defined.

(** ** formatMessages *)

(** C8. [formatMessages] keeps the number and the order of the messages, and
    the record at each position has the role and the content of the message
    at that position, and nothing else. *)
Theorem formatMessages_projection (messages : list Message) :
  length (formatMessages messages) = length messages
  /\ (forall i : nat,
        formatMessages messages !! i
        = (fun msg => mkFormatted (role msg) (content msg)) <$> messages !! i)
  /\ (forall i : nat,
        fm_role <$> formatMessages messages !! i = role <$> messages !! i)
  /\ (forall i : nat,
        fm_content <$> formatMessages messages !! i = content <$> messages !! i).
Proof.
  assert (forall i : nat,
            formatMessages messages !! i
            = (fun msg => mkFormatted (role msg) (content msg)) <$> messages !! i)
    as Hlookup.
  { induction messages as [|msg messages IH]; intros [|i]; simpl; auto. }
  split_and!.
  - unfold formatMessages. apply length_map.
  - exact Hlookup.
  - intros i. rewrite Hlookup. by destruct (messages !! i).
  - intros i. rewrite Hlookup. by destruct (messages !! i).
Qed.

(** ** The constructor *)

Lemma or_given (a b : option string) (s : string) :
  given a s -> Js.or a b = Some s.
Proof.
  intros [-> Hs]. unfold Js.or, truthy.
  destruct (String.eqb s "") eqn:E; [|done]. by apply String.eqb_eq in E.
Qed.

Lemma or_not_given (a b : option string) :
  not_given a -> Js.or a b = b.
Proof. by intros [-> | ->]. Qed.

(** C5. The base URL and the model handed to the parent constructor are the
    ones of the [config] argument when given there; otherwise the ones of
    [SILICONFLOW_API_BASE_URL] and [SILICONFLOW_DEFAULT_MODEL] when given in
    the environment; otherwise the literals.  With the default [config] and
    [SILICONFLOW_DEFAULT_MODEL=test-model], the model is ["test-model"]. *)
Theorem constructor_precedence (config : LLMConfig) (env : gmap string string) :
  (forall url, given (baseURL config) url ->
               baseURL (constructor config env) = Some url)
  /\ (forall url, not_given (baseURL config) ->
                  given (env !! "SILICONFLOW_API_BASE_URL") url ->
                  baseURL (constructor config env) = Some url)
  /\ (not_given (baseURL config) ->
      not_given (env !! "SILICONFLOW_API_BASE_URL") ->
      baseURL (constructor config env) = Some "https://api.siliconflow.com/v1")
  /\ (forall name, given (model config) name ->
                   model (constructor config env) = Some name)
  /\ (forall name, not_given (model config) ->
                   given (env !! "SILICONFLOW_DEFAULT_MODEL") name ->
                   model (constructor config env) = Some name)
  /\ (not_given (model config) ->
      not_given (env !! "SILICONFLOW_DEFAULT_MODEL") ->
      model (constructor config env) = Some "siliconflow-default")
  /\ (env !! "SILICONFLOW_DEFAULT_MODEL" = Some "test-model" ->
      model (constructor empty_config env) = Some "test-model")
  /\ other (constructor config env) = other config.
Proof.
  unfold constructor. simpl. split_and!.
  - intros url H. by apply or_given.
  - intros url H1 H2. rewrite or_not_given by done. by apply or_given.
  - intros H1 H2. by rewrite !or_not_given.
  - intros name H. by apply or_given.
  - intros name H1 H2. rewrite or_not_given by done. by apply or_given.
  - intros H1 H2. by rewrite !or_not_given.
  - intros H. by rewrite H.
  - done.
Qed.

Lemma constructor_precedence_witness :
  let env : gmap string string :=
    {["SILICONFLOW_DEFAULT_MODEL" := "test-model"]} in
  env !! "SILICONFLOW_DEFAULT_MODEL" = Some "test-model"
  /\ model (constructor empty_config env) = Some "test-model"
  /\ baseURL (constructor empty_config env)
     = Some "https://api.siliconflow.com/v1".
Proof.
  intros env.
  assert (env !! "SILICONFLOW_DEFAULT_MODEL" = Some "test-model") as H
    by (vm_compute; reflexivity).
  assert (not_given (baseURL empty_config)) as H1 by (left; reflexivity).
  assert (not_given (env !! "SILICONFLOW_API_BASE_URL")) as H2
    by (left; vm_compute; reflexivity).
  pose proof (constructor_precedence empty_config env)
    as (_ & _ & R3 & _ & _ & _ & R7 & _).
  split; [exact H|]. split; [exact (R7 H) | exact (R3 H1 H2)].
Defined.


(** * Further properties *)

(** ** Runs, by what happens at the call site *)

Lemma fresh_not_aborted (requestId : string) (w : World) :
  is_aborted (registered requestId w) (length (signals w)) = false.
Proof.
  unfold is_aborted, registered. simpl.
  by rewrite lookup_app_r, Nat.sub_diag by lia.
Qed.

Lemma older_signals_kept (requestId : string) (w : World) (c : AbortController) :
  c < length (signals w) ->
  is_aborted (released requestId (registered requestId w)) c = is_aborted w c.
Proof.
  intros Hc. unfold is_aborted, released, registered. simpl.
  by rewrite lookup_app_l.
Qed.

(** The world the source as it stands leaves behind. *)
Lemma settled_world (requestId : string) (w : World) :
  released requestId (registered requestId w)
  = mkWorld (delete requestId (activeRequests w)) (signals w ++ [false]).
Proof.
  unfold released, registered. simpl. by rewrite delete_insert_eq.
Qed.

Lemma run_operation_as_it_stands (op : Operation) (w : World) :
  run_operation nothing_pending op w
  = released (operation_id op) (registered (operation_id op) w).
Proof.
  destruct op as [messages requestId|messages tools requestId toolChoice
                  |messages requestId]; cbn [run_operation operation_id].
  - by destruct (final_world nothing_pending messages [] choice_auto
                   requestId w) as (-> & _ & _).
  - by destruct (final_world nothing_pending messages tools toolChoice
                   requestId w) as (_ & -> & _).
  - destruct (resolved_run nothing_pending messages [] choice_auto requestId
                w (registered requestId w) eq_refl) as (_ & _ & R3).
    by rewrite generator_next_start, R3.
Qed.

(** ** The source as it stands *)

(** X1. With nothing awaited at the call site, no operation ever throws and
    no catch block is entered: for every input and every world [askLLMText]
    returns [""], [askTool] returns [{ content: '', tool_calls: [] }], and
    the generator is done at its first [next()] without a fragment. *)
Theorem settles_without_throwing (messages : list Message)
    (tools : list ChatCompletionTool) (toolChoice : ToolChoice)
    (requestId : string) (w : World) :
  let w' := mkWorld (delete requestId (activeRequests w)) (signals w ++ [false]) in
  askLLMText_try nothing_pending messages requestId w = (Ret "", w')
  /\ askLLMText nothing_pending messages requestId w = (Ret "", w')
  /\ askTool nothing_pending messages tools requestId toolChoice w
     = (Ret (mkResponse "" (Some [])), w')
  /\ generator_next (askLLMTextStream_body nothing_pending messages requestId)
       SuspendedStart w
     = (Ret Done, Completed, w')
  /\ (forall fuel : nat,
        for_await (S fuel) (askLLMTextStream_body nothing_pending messages requestId)
          SuspendedStart w
        = Some (Ret [], w')).
Proof.
  intros w'. unfold w'. rewrite <- settled_world.
  destruct (try_blocks_completed nothing_pending messages tools toolChoice
              requestId w (registered requestId w) eq_refl
              (fresh_not_aborted requestId w)) as (T1 & _ & _).
  destruct (resolved_run nothing_pending messages tools toolChoice requestId
              w (registered requestId w) eq_refl) as (R1 & R2 & R3).
  rewrite fresh_not_aborted in R2.
  split_and!; [done | done | done | |].
  - by rewrite generator_next_start, R3.
  - intros fuel. by apply for_await_done.
Qed.

(** X2. With nothing awaited at the call site, an operation touches nothing
    but its own id: every other registry entry is as before, the signal of
    every controller that existed is as before, and exactly one controller
    has been created. *)
Theorem other_requests_untouched (op : Operation) (w : World) :
  let w' := run_operation nothing_pending op w in
  (forall id : string,
     id <> operation_id op -> activeRequests w' !! id = activeRequests w !! id)
  /\ (forall c : AbortController,
        c < length (signals w) -> is_aborted w' c = is_aborted w c)
  /\ length (signals w') = S (length (signals w)).
Proof.
  rewrite run_operation_as_it_stands. cbv zeta. split_and!.
  - intros id Hid. rewrite settled_world. simpl. by rewrite lookup_delete_ne.
  - intros c Hc. by apply older_signals_kept.
  - rewrite settled_world. simpl. rewrite length_app. simpl. lia.
Qed.

Lemma other_requests_untouched_witness :
  let w := mkWorld {["req-0" := 0]} [true] in
  let w' := run_operation nothing_pending
              (op_askTool [] [] "req-1" choice_auto) w in
  "req-0" <> "req-1"
  /\ 0 < length (signals w)
  /\ activeRequests w' !! "req-0" = Some 0
  /\ is_aborted w' 0 = true.
Proof.
  intros w w'.
  assert ("req-0" <> "req-1") as Hne by discriminate.
  assert (0 < length (signals w)) as Hlt by (simpl; lia).
  pose proof (other_requests_untouched
                (op_askTool [] [] "req-1" choice_auto) w) as (R1 & R2 & _).
  split; [exact Hne|]. split; [exact Hlt|].
  split; [exact (R1 "req-0" Hne) | exact (R2 0 Hlt)].
Defined.

(** X3. With nothing awaited at the call site, an operation started under an
    id that is not in the registry leaves the registry exactly as it found
    it; started under an id that is in the registry, it leaves the registry
    without that entry. *)
Theorem registry_restored (op : Operation) (w : World) :
  (activeRequests w !! operation_id op = None ->
   activeRequests (run_operation nothing_pending op w) = activeRequests w)
  /\ activeRequests (run_operation nothing_pending op w)
     = delete (operation_id op) (activeRequests w).
Proof.
  assert (activeRequests (run_operation nothing_pending op w)
          = delete (operation_id op) (activeRequests w)) as H
    by (by rewrite run_operation_as_it_stands, settled_world).
  split; [|done]. intros Hnone. rewrite H. by apply delete_id.
Qed.

Lemma registry_restored_witness :
  let w := mkWorld {["req-0" := 0]} [false] in
  activeRequests w !! "req-1" = None
  /\ activeRequests
       (run_operation nothing_pending (op_askLLMText [] "req-1") w)
     = activeRequests w.
Proof.
  intros w.
  assert (activeRequests w !! "req-1" = None) as H by (vm_compute; reflexivity).
  split; [exact H|].
  exact (proj1 (registry_restored (op_askLLMText [] "req-1") w) H).
Defined.

(** ** What can be thrown to the caller *)

Lemma includes_app_r (a b sub : string) :
  includes b sub = true -> includes (a +:+ b) sub = true.
Proof.
  rewrite !includes_spec. intros (before & after & ->).
  exists (a +:+ before), after. by rewrite append_assoc.
Qed.

Lemma askLLMText_throws pending messages requestId w e' w' :
  askLLMText pending messages requestId w = (Throw e', w') ->
  exists e w2,
    pending (registered requestId w) = (Throw e, w2)
    /\ ~ cancellation e
    /\ w' = released requestId w2
    /\ ((exists text,
           ToString e = Text text
           /\ e' = JsError "Error"
                     ("Failed to get response from SiliconFlow: " +:+ text))
        \/ ToString e = Raises e').
Proof.
  intros H. destruct (pending (registered requestId w)) as [[[]|e] w2] eqn:Hp.
  - destruct (resolved_run pending messages [] choice_auto requestId w w2 Hp)
      as (R1 & _ & _). congruence.
  - destruct (rejected_run pending messages [] choice_auto requestId w w2 e Hp)
      as (R1 & _ & _). rewrite R1 in H.
    destruct (cancellation_or_not e) as [Hc|Hn].
    + rewrite askLLMText_catch_cancelled in H by done. discriminate H.
    + rewrite askLLMText_catch_not_cancelled in H by done.
      exists e, w2. destruct (ToString e) as [text|thrown];
        injection H as <- <-; split_and!; try done.
      * left. by exists text.
      * by right.
Qed.

Lemma askTool_throws pending messages tools toolChoice requestId w e' w' :
  askTool pending messages tools requestId toolChoice w = (Throw e', w') ->
  exists e w2,
    pending (registered requestId w) = (Throw e, w2)
    /\ ~ tool_cancellation e
    /\ w' = released requestId w2
    /\ ((exists text,
           errorMessage e = Text text
           /\ ~ abort_text (errorName e) text
           /\ e' = JsError "Error"
                     ("Failed to get tool response from SiliconFlow: " +:+ text))
        \/ errorMessage e = Raises e').
Proof.
  intros H. destruct (pending (registered requestId w)) as [[[]|e] w2] eqn:Hp.
  - destruct (resolved_run pending messages tools toolChoice requestId w w2 Hp)
      as (_ & R2 & _). congruence.
  - destruct (rejected_run pending messages tools toolChoice requestId w w2 e Hp)
      as (_ & R2 & _). rewrite R2 in H.
    destruct (tool_cancellation_or_not e) as [Hc|Hn].
    + rewrite askTool_catch_cancelled in H by done. discriminate H.
    + rewrite askTool_catch_not_cancelled in H by done.
      exists e, w2. destruct (errorMessage e) as [text|thrown] eqn:Hm;
        injection H as <- <-; split_and!; try done.
      * left. exists text. split_and!; try done.
        intros Ht. apply Hn. by exists text.
      * by right.
Qed.

Lemma askLLMTextStream_throws pending messages requestId w e' w' :
  askLLMTextStream_body pending messages requestId w = (Throw e', w') ->
  exists e w2,
    pending (registered requestId w) = (Throw e, w2)
    /\ ~ cancellation e
    /\ w' = released requestId w2
    /\ ((exists text,
           ToString e = Text text
           /\ e' = JsError "Error"
                     ("Failed to get stream response from SiliconFlow: "
                      +:+ text))
        \/ ToString e = Raises e').
Proof.
  intros H. destruct (pending (registered requestId w)) as [[[]|e] w2] eqn:Hp.
  - destruct (resolved_run pending messages [] choice_auto requestId w w2 Hp)
      as (_ & _ & R3). congruence.
  - destruct (rejected_run pending messages [] choice_auto requestId w w2 e Hp)
      as (_ & _ & R3). rewrite R3 in H.
    destruct (cancellation_or_not e) as [Hc|Hn].
    + rewrite askLLMTextStream_catch_cancelled in H by done. discriminate H.
    + rewrite askLLMTextStream_catch_not_cancelled in H by done.
      exists e, w2. destruct (ToString e) as [text|thrown];
        injection H as <- <-; split_and!; try done.
      * left. by exists text.
      * by right.
Qed.

(** X4. Whatever happens at the call site, an operation throws only after
    the awaited request was rejected with a value that its catch block does
    not read as a cancellation, and only once the entry is released.  What
    it throws is its own wrapped failure, built with the text of the caught
    value, or, when taking that text throws, what the conversion threw.  The
    ["Request aborted"] error of the abort check never reaches the caller. *)
Theorem thrown_values_characterised (pending : M unit)
    (messages : list Message) (tools : list ChatCompletionTool)
    (toolChoice : ToolChoice) (requestId : string) (w : World) :
  (forall e' w',
     askLLMText pending messages requestId w = (Throw e', w') ->
     exists e w2,
       pending (registered requestId w) = (Throw e, w2)
       /\ ~ cancellation e
       /\ w' = released requestId w2
       /\ ((exists text,
              ToString e = Text text
              /\ e' = JsError "Error"
                        ("Failed to get response from SiliconFlow: " +:+ text))
           \/ ToString e = Raises e'))
  /\ (forall e' w',
        askTool pending messages tools requestId toolChoice w = (Throw e', w') ->
        exists e w2,
          pending (registered requestId w) = (Throw e, w2)
          /\ ~ tool_cancellation e
          /\ w' = released requestId w2
          /\ ((exists text,
                 errorMessage e = Text text
                 /\ ~ abort_text (errorName e) text
                 /\ e' = JsError "Error"
                           ("Failed to get tool response from SiliconFlow: "
                            +:+ text))
              \/ errorMessage e = Raises e'))
  /\ (forall e' g w',
        generator_next (askLLMTextStream_body pending messages requestId)
          SuspendedStart w = (Throw e', g, w') ->
        exists e w2,
          pending (registered requestId w) = (Throw e, w2)
          /\ ~ cancellation e
          /\ w' = released requestId w2
          /\ ((exists text,
                 ToString e = Text text
                 /\ e' = JsError "Error"
                           ("Failed to get stream response from SiliconFlow: "
                            +:+ text))
              \/ ToString e = Raises e')).
Proof.
  split_and!.
  - intros e' w'. apply askLLMText_throws.
  - intros e' w'. apply askTool_throws.
  - intros e' g w' H. rewrite generator_next_start in H.
    destruct (askLLMTextStream_body pending messages requestId w)
      as [[[]|e0] w0] eqn:Hb; [discriminate H|].
    apply (askLLMTextStream_throws pending messages requestId w e' w').
    congruence.
Qed.

Lemma thrown_values_characterised_witness :
  let e := JsSymbol "boom" in
  let pending : M unit := throw e in
  let e' := JsError "TypeError" "Cannot convert a Symbol value to a string" in
  let w' := released "req-1" (registered "req-1" initial_world) in
  askLLMText pending [] "req-1" initial_world = (Throw e', w')
  /\ exists e0 w2,
       pending (registered "req-1" initial_world) = (Throw e0, w2)
       /\ ~ cancellation e0
       /\ w' = released "req-1" w2
       /\ ((exists text,
              ToString e0 = Text text
              /\ e' = JsError "Error"
                        ("Failed to get response from SiliconFlow: " +:+ text))
           \/ ToString e0 = Raises e').
Proof.
  intros e pending e' w'.
  assert (askLLMText pending [] "req-1" initial_world = (Throw e', w')) as H
    by reflexivity.
  split; [exact H|].
  exact (proj1 (thrown_values_characterised pending [] [] choice_auto
                  "req-1" initial_world) e' w' H).
Defined.

(** X5. A thrown value that is not an [Error] object is never a cancellation
    for [askLLMText] and [askLLMTextStream]: they throw the wrapped failure
    built with the template literal, or what the template literal throws (a
    [TypeError] on a Symbol).  [askTool] reads the same value through
    [String(error)], which describes a Symbol instead of throwing: it answers
    [{ content: '' }] when that text contains ["aborted"] and throws the
    wrapped failure otherwise. *)
Theorem thrown_non_error_values (pending : M unit) (messages : list Message)
    (tools : list ChatCompletionTool) (toolChoice : ToolChoice)
    (requestId : string) (w w2 : World) (e : Value) :
  pending (registered requestId w) = (Throw e, w2) ->
  instanceof_Error e = false ->
  askLLMText pending messages requestId w
  = (match ToString e with
     | Text text =>
         Throw (JsError "Error"
                  ("Failed to get response from SiliconFlow: " +:+ text))
     | Raises thrown => Throw thrown
     end, released requestId w2)
  /\ askLLMTextStream_body pending messages requestId w
     = (match ToString e with
        | Text text =>
            Throw (JsError "Error"
                     ("Failed to get stream response from SiliconFlow: "
                      +:+ text))
        | Raises thrown => Throw thrown
        end, released requestId w2)
  /\ askTool pending messages tools requestId toolChoice w
     = (match String_ e with
        | Text text =>
            if includes text "aborted"
            then Ret (mkResponse "" None)
            else Throw (JsError "Error"
                          ("Failed to get tool response from SiliconFlow: "
                           +:+ text))
        | Raises thrown => Throw thrown
        end, released requestId w2)
  /\ (forall description : string,
        e = JsSymbol description ->
        ToString e = Raises symbol_conversion_error
        /\ String_ e = Text ("Symbol(" +:+ description +:+ ")")).
Proof.
  intros H Hi.
  assert (~ cancellation e) as Hn by (intros [Hc _]; congruence).
  destruct (rejected_run pending messages tools toolChoice requestId w w2 _ H)
    as (-> & -> & ->).
  rewrite askLLMText_catch_not_cancelled, askLLMTextStream_catch_not_cancelled
    by done.
  split_and!; [done | done | | by intros description ->].
  unfold askTool_catch, bind, errorMessage, errorName. simpl. rewrite Hi.
  destruct (String_ e) as [text|thrown]; simpl; [|done].
  by destruct (includes text "aborted").
Qed.

Lemma thrown_non_error_values_witness :
  let e := JsSymbol "request aborted" in
  let pending : M unit := throw e in
  pending (registered "req-1" initial_world)
  = (Throw e, registered "req-1" initial_world)
  /\ instanceof_Error e = false
  /\ (askLLMText pending [] "req-1" initial_world).1
     = Throw (JsError "TypeError" "Cannot convert a Symbol value to a string")
  /\ (askTool pending [] [] "req-1" choice_auto initial_world).1
     = Ret (mkResponse "" None).
Proof.
  intros e pending.
  assert (pending (registered "req-1" initial_world)
          = (Throw e, registered "req-1" initial_world)) as H by reflexivity.
  assert (instanceof_Error e = false) as Hi by reflexivity.
  pose proof (thrown_non_error_values pending [] [] choice_auto "req-1"
                initial_world _ e H Hi) as (R1 & _ & R3 & _).
  split; [exact H|]. split; [exact Hi|].
  split; [exact (f_equal fst R1) | exact (f_equal fst R3)].
Defined.

Lemma tool_failure_text (detail : string) :
  includes ("Failed to get tool response from SiliconFlow: " +:+ detail)
    "aborted"
  = includes detail "aborted".
Proof. vm_compute. reflexivity. Qed.

(** X6. The wrapped failure that [askTool] throws is never itself read as a
    cancellation by the test of any of the three catch blocks: it is an
    [Error] named ["Error"] whose message does not contain ["aborted"].  The
    one other thing [askTool] can throw is what [String(error)] throws on a
    caught value that is not an [Error] and cannot be turned into a string. *)
Theorem askTool_failure_is_not_a_cancellation (pending : M unit)
    (messages : list Message) (tools : list ChatCompletionTool)
    (toolChoice : ToolChoice) (requestId : string) (w w' : World) (e' : Value) :
  askTool pending messages tools requestId toolChoice w = (Throw e', w') ->
  (~ cancellation e' /\ ~ tool_cancellation e')
  \/ (exists e w2,
        pending (registered requestId w) = (Throw e, w2)
        /\ instanceof_Error e = false
        /\ String_ e = Raises e').
Proof.
  intros H.
  destruct (askTool_throws _ _ _ _ _ _ _ _ H)
    as (e & w2 & Hp & _ & _ & [(text & Hm & Hn & ->)|Hm]).
  - left.
    assert (includes text "aborted" = false) as Hi.
    { destruct (includes text "aborted") eqn:E; [|done].
      destruct Hn. apply abort_text_test. rewrite E. apply orb_true_r. }
    assert (~ tool_cancellation
              (JsError "Error"
                 ("Failed to get tool response from SiliconFlow: " +:+ text)))
      as Hgoal.
    { intros (text' & [= <-] & Hc%abort_text_test).
      cbn [errorName instanceof_Error error_name] in Hc.
      rewrite tool_failure_text, Hi in Hc. discriminate Hc. }
    split; [|done]. intros Hc. by apply Hgoal, cancellation_tool.
  - right. exists e, w2. unfold errorMessage in Hm.
    by destruct (instanceof_Error e).
Qed.

Lemma askTool_failure_is_not_a_cancellation_witness :
  let e' := JsError "Error"
              "Failed to get tool response from SiliconFlow: fetch failed" in
  let w' := released "req-1" (registered "req-1" initial_world) in
  askTool (throw (JsError "TypeError" "fetch failed")) [] [] "req-1"
    choice_auto initial_world = (Throw e', w')
  /\ ((~ cancellation e' /\ ~ tool_cancellation e')
      \/ (exists e w2,
            throw (A := unit) (JsError "TypeError" "fetch failed")
              (registered "req-1" initial_world) = (Throw e, w2)
            /\ instanceof_Error e = false
            /\ String_ e = Raises e')).
Proof.
  intros e' w'.
  assert (askTool (throw (JsError "TypeError" "fetch failed")) [] [] "req-1"
            choice_auto initial_world = (Throw e', w')) as H by reflexivity.
  split; [exact H|].
  exact (askTool_failure_is_not_a_cancellation _ [] [] choice_auto "req-1"
           initial_world w' e' H).
Defined.

(** X7. A failure thrown by [askLLMText] or [askLLMTextStream] can itself be
    read as a cancellation: when the caught value is not a cancellation but
    the text the template literal makes of it contains ["aborted"] (a thrown
    string, or an [Error] whose name contains it), the wrapped failure
    carries that text in its message, and the same test applied to it
    answers cancellation. *)
Theorem wrapped_failure_read_as_cancellation (pending : M unit)
    (messages : list Message) (requestId : string) (w w2 : World) (e : Value)
    (text : string) :
  pending (registered requestId w) = (Throw e, w2) ->
  ~ cancellation e ->
  ToString e = Text text ->
  includes text "aborted" = true ->
  exists e1 e2,
    askLLMText pending messages requestId w = (Throw e1, released requestId w2)
    /\ askLLMTextStream_body pending messages requestId w
       = (Throw e2, released requestId w2)
    /\ cancellation e1 /\ cancellation e2.
Proof.
  intros H Hn Ht Hi.
  destruct (rejected_run pending messages [] choice_auto requestId w w2 e H)
    as (-> & _ & ->).
  rewrite askLLMText_catch_not_cancelled, askLLMTextStream_catch_not_cancelled
    by done.
  rewrite Ht. do 2 eexists. split_and!; [reflexivity | reflexivity | |].
  - apply cancellation_test. cbn [instanceof_Error error_name error_message].
    rewrite (includes_app_r _ _ _ Hi). by rewrite orb_true_r.
  - apply cancellation_test. cbn [instanceof_Error error_name error_message].
    rewrite (includes_app_r _ _ _ Hi). by rewrite orb_true_r.
Qed.

Lemma wrapped_failure_read_as_cancellation_witness :
  let e := JsOther "request aborted by user" in
  let pending : M unit := throw e in
  pending (registered "req-1" initial_world)
  = (Throw e, registered "req-1" initial_world)
  /\ ~ cancellation e
  /\ ToString e = Text "request aborted by user"
  /\ includes "request aborted by user" "aborted" = true
  /\ exists e1 e2,
       askLLMText pending [] "req-1" initial_world
       = (Throw e1, released "req-1" (registered "req-1" initial_world))
       /\ askLLMTextStream_body pending [] "req-1" initial_world
          = (Throw e2, released "req-1" (registered "req-1" initial_world))
       /\ cancellation e1 /\ cancellation e2.
Proof.
  intros e pending.
  assert (pending (registered "req-1" initial_world)
          = (Throw e, registered "req-1" initial_world)) as H by reflexivity.
  assert (~ cancellation e) as Hn by (intros [Hc _]; discriminate Hc).
  assert (ToString e = Text "request aborted by user") as Ht by reflexivity.
  assert (includes "request aborted by user" "aborted" = true) as Hi
    by reflexivity.
  split; [exact H|]. split; [exact Hn|]. split; [exact Ht|]. split; [exact Hi|].
  exact (wrapped_failure_read_as_cancellation pending [] "req-1"
           initial_world _ e _ H Hn Ht Hi).
Defined.

(** ** Calls one after the other *)

Lemma run_operation_registry (op : Operation) (w : World) :
  activeRequests (run_operation nothing_pending op w)
  = delete (operation_id op) (activeRequests w).
Proof. by rewrite run_operation_as_it_stands, settled_world. Qed.

Lemma run_operation_signals (op : Operation) (w : World) :
  signals (run_operation nothing_pending op w) = (signals w ++ [false])%list.
Proof. by rewrite run_operation_as_it_stands, settled_world. Qed.

Lemma run_operations_cons (op : Operation) (ops : list Operation) (w : World) :
  run_operations nothing_pending (op :: ops) w
  = run_operations nothing_pending ops (run_operation nothing_pending op w).
Proof. reflexivity. Qed.

Lemma run_operations_absent (ops : list Operation) (w : World) (id : string) :
  activeRequests w !! id = None ->
  activeRequests (run_operations nothing_pending ops w) !! id = None.
Proof.
  revert w. induction ops as [|op ops IH]; intros w H; [done|].
  rewrite run_operations_cons. apply IH. rewrite run_operation_registry.
  apply lookup_delete_None. by right.
Qed.

(** X8. Calls made one after the other, with nothing awaited at the call
    site, leave in the registry exactly the entries that were there under ids
    no call used; every call creates one controller.  From an empty registry
    the registry is empty again after any number of calls, so no call of
    such a run ever finds its id already registered. *)
Theorem registry_after_operations (ops : list Operation) (w : World) :
  let w' := run_operations nothing_pending ops w in
  (forall id : string,
     In id (map operation_id ops) -> activeRequests w' !! id = None)
  /\ (forall id : string,
        ~ In id (map operation_id ops) ->
        activeRequests w' !! id = activeRequests w !! id)
  /\ length (signals w') = length (signals w) + length ops
  /\ (activeRequests w = ∅ -> activeRequests w' = ∅).
Proof.
  cbv zeta. split_and!.
  - revert w. induction ops as [|op ops IH]; intros w id Hin; [done|].
    rewrite run_operations_cons. destruct Hin as [<-|Hin].
    + apply run_operations_absent. rewrite run_operation_registry.
      apply lookup_delete_eq.
    + by apply IH.
  - revert w. induction ops as [|op ops IH]; intros w id Hin; [done|].
    rewrite run_operations_cons, IH by (intros H; apply Hin; by right).
    rewrite run_operation_registry. apply lookup_delete_ne.
    intros Heq. apply Hin. by left.
  - revert w. induction ops as [|op ops IH]; intros w; simpl; [lia|].
    fold (run_operations nothing_pending ops
            (run_operation nothing_pending op w)).
    rewrite IH, run_operation_signals, length_app. simpl. lia.
  - intros Hempty. apply map_empty. intros id.
    apply run_operations_absent. by rewrite Hempty.
Qed.

Lemma registry_after_operations_witness :
  let ops := [op_askLLMText [] "req-1";
              op_askTool [] [] "req-1" choice_none;
              op_askLLMTextStream [] "req-2"] in
  let w' := run_operations nothing_pending ops initial_world in
  activeRequests initial_world = ∅
  /\ In "req-1" (map operation_id ops)
  /\ activeRequests w' = ∅
  /\ activeRequests w' !! "req-1" = None.
Proof.
  intros ops w'.
  assert (activeRequests initial_world = ∅) as H by reflexivity.
  assert (In "req-1" (map operation_id ops)) as Hin by (left; reflexivity).
  pose proof (registry_after_operations ops initial_world) as (R1 & _ & _ & R4).
  split; [exact H|]. split; [exact Hin|].
  split; [exact (R4 H) | exact (R1 "req-1" Hin)].
Defined.

(** ** Cancel by id while the request is awaited *)




(** ** formatMessages, further *)

(** X11. Two conversations are formatted alike exactly when they have the
    same roles and contents in the same order: whatever else a message
    carries is dropped, and nothing of the role or the content is lost. *)
Theorem formatMessages_eq_iff (messages messages' : list Message) :
  formatMessages messages = formatMessages messages'
  <-> map role_and_content messages = map role_and_content messages'.
Proof.
  revert messages'.
  induction messages as [|msg messages IH]; intros [|msg' messages'];
    try (split; discriminate); [done|].
  change (formatMessages (msg :: messages))
    with (mkFormatted (role msg) (content msg) :: formatMessages messages).
  change (formatMessages (msg' :: messages'))
    with (mkFormatted (role msg') (content msg') :: formatMessages messages').
  rewrite !map_cons. unfold role_and_content at 1 3. split.
  - intros [= Hr Hc H]. apply IH in H. congruence.
  - intros [= Hr Hc H]. apply IH in H. congruence.
Qed.

(** X12. Formatting follows the conversation as it grows: an empty
    conversation formats to an empty list, and formatting a conversation
    continued by another gives the formatted first followed by the formatted
    second. *)
Theorem formatMessages_app (messages messages' : list Message) :
  formatMessages [] = []
  /\ formatMessages (messages ++ messages')
     = (formatMessages messages ++ formatMessages messages')%list.
Proof. split; [done | apply map_app]. Qed.

(** ** The constructor, further *)

Lemma or_result (a b : option string) :
  (exists s, given a s /\ Js.or a b = Some s) \/ (not_given a /\ Js.or a b = b).
Proof.
  destruct a as [s|].
  - destruct (String.eqb s "") eqn:E.
    + apply String.eqb_eq in E as ->. right. split; [by right | done].
    + left. exists s. assert (s <> "") by (intros ->; discriminate E).
      split; [done | by apply or_given].
  - right. split; [by left | done].
Qed.

Lemma resolved_given (a b : option string) (literal : string) :
  literal <> "" ->
  exists s, given (Js.or a (Js.or b (Some literal))) s.
Proof.
  intros Hl.
  destruct (or_result a (Js.or b (Some literal))) as [(s & [? ?] & ->)|[_ ->]].
  - by exists s.
  - destruct (or_result b (Some literal)) as [(s & [? ?] & ->)|[_ ->]].
    + by exists s.
    + by exists literal.
Qed.

(** X13. Whatever the argument and the environment, the parent constructor
    is handed a base URL and a model that are both non-empty strings. *)
Theorem constructor_always_resolves (config : LLMConfig)
    (env : gmap string string) :
  exists url name : string,
    given (baseURL (constructor config env)) url
    /\ given (model (constructor config env)) name.
Proof.
  destruct (resolved_given (baseURL config) (env !! "SILICONFLOW_API_BASE_URL")
              "https://api.siliconflow.com/v1") as [url Hu]; [done|].
  destruct (resolved_given (model config) (env !! "SILICONFLOW_DEFAULT_MODEL")
              "siliconflow-default") as [name Hn]; [done|].
  by exists url, name.
Qed.

(** X14. A configuration that the constructor has resolved is stable: given
    again as the argument, under any environment, it comes out unchanged. *)
Theorem constructor_idempotent (config : LLMConfig)
    (env env' : gmap string string) :
  constructor (constructor config env) env' = constructor config env.
Proof.
  destruct (resolved_given (baseURL config) (env !! "SILICONFLOW_API_BASE_URL")
              "https://api.siliconflow.com/v1") as [url Hu]; [done|].
  destruct (resolved_given (model config) (env !! "SILICONFLOW_DEFAULT_MODEL")
              "siliconflow-default") as [name Hn]; [done|].
  unfold constructor at 1. cbn [baseURL model other constructor].
  rewrite (or_given _ _ _ Hu), (or_given _ _ _ Hn).
  unfold constructor. f_equal; [by destruct Hu | by destruct Hn].
Qed.

Lemma formatMessages_eq_iff_witness :
  let messages := [mkMessage user "hi" [("name", "ada")];
                   mkMessage assistant "hello" []] in
  let messages' := [mkMessage user "hi" [];
                    mkMessage assistant "hello" [("tool_call_id", "7")]] in
  map role_and_content messages = map role_and_content messages'
  /\ messages <> messages'
  /\ formatMessages messages = formatMessages messages'.
Proof.
  intros messages messages'.
  assert (map role_and_content messages = map role_and_content messages') as H
    by reflexivity.
  split; [exact H|]. split; [discriminate|].
  exact (proj2 (formatMessages_eq_iff messages messages') H).
Defined.
